(** * Token revocation endpoint: [src/server/auth/handlers/revoke.ts]

    A shallow embedding of [revocationHandler] and of the request pipeline it
    assembles.  The Express router is a list of layers run in registration
    order; every layer either passes the request on ([next()]), ends the
    response, or never answers.  State that outlives one request (the rate
    limiter's counters, whatever the provider owns) is threaded explicitly,
    together with a log of the calls made to the external capabilities. *)

From stdpp Require Import base option list strings gmap.

Open Scope string_scope.
Open Scope list_scope.

Set Warnings "-register-all".

(** ** JSON values sent with [res.json] *)

Inductive Json :=
| JNull
| JBool (b : bool)
| JNum (n : Z)
| JStr (s : string)
| JArr (items : list Json)
| JObj (fields : list (string * Json)).

(** ** The OAuth error taxonomy ([../errors.js]) *)

(** Modelled from the spec: [errors.js] is not among the sources.  An
    OAuthError carries a machine-readable kind and a human-readable
    description and renders itself as [{error, error_description}]; the class
    of the JavaScript object is the kind ([instanceof] looks at the class, not
    at the code string). *)
Inductive ErrorClass :=
| InvalidRequestError
| ServerError
| TooManyRequestsError
| MethodNotAllowedError
| OtherOAuthError (code : string).

Record OAuthError := { cls : ErrorClass; description : string }.

Definition errorCode (c : ErrorClass) : string :=
  match c with
  | InvalidRequestError => "invalid_request"
  | ServerError => "server_error"
  | TooManyRequestsError => "too_many_requests"
  | MethodNotAllowedError => "method_not_allowed"
  | OtherOAuthError code => code
  end.

Definition toResponseObject (e : OAuthError) : Json :=
  JObj [("error", JStr (errorCode (cls e)));
        ("error_description", JStr (description e))].

(** [error instanceof ServerError] *)
Definition instanceof_ServerError (e : OAuthError) : bool :=
  match cls e with
  | ServerError => true
  | _ => false
  end.

(** What a [throw] (or a rejected promise) carries: an OAuthError, or any
    other value, of which only some textual detail is kept. *)
Inductive Thrown :=
| ThrownOAuth (e : OAuthError)
| ThrownOther (detail : string).

(** ** Requests and responses *)

Record Client := { client_id : string; client_secret : option string }.

Record RevocationRequest :=
  { token : string; token_type_hint : option string }.

(** A decoded [application/x-www-form-urlencoded] body. *)
Definition Form := list (string * string).

Record Request := {
  method : string;
  ip : string;                 (* the rate limiter's default key *)
  payload : Form;              (* the form fields on the wire *)
  body : option Form;          (* [req.body], set by the body parser *)
  client : option Client       (* [req.client], set by authentication *)
}.

Record Response := {
  statusCode : nat;
  headers : gmap string string;
  sent : option Json           (* [None] until the response is ended *)
}.

Definition setHeader (name value : string) (res : Response) : Response :=
  {| statusCode := statusCode res;
     headers := <[name := value]> (headers res);
     sent := sent res |}.

Definition status (code : nat) (res : Response) : Response :=
  {| statusCode := code; headers := headers res; sent := sent res |}.

Definition json (b : Json) (res : Response) : Response :=
  {| statusCode := statusCode res; headers := headers res; sent := Some b |}.

Definition with_body (b : option Form) (req : Request) : Request :=
  {| method := method req; ip := ip req; payload := payload req;
     body := b; client := client req |}.

Definition with_client (c : Client) (req : Request) : Request :=
  {| method := method req; ip := ip req; payload := payload req;
     body := body req; client := Some c |}.

(** ** The schema and the provider *)

Inductive ParseResult :=
| ParseOk (data : RevocationRequest)
| ParseError (issues : string).

(** How an awaited provider call ends: the promise resolves (with a value the
    handler never looks at), rejects, or stays pending for ever. *)
Inductive Outcome :=
| Resolved (v : Json)
| Rejected (t : Thrown)
| Pending.

(** The collaborators that the handler imports and whose code is elsewhere:
    the type of the provider's own state, [OAuthTokenRevocationRequestSchema]
    (through its [safeParse]) and the text of the method gate's error. *)
Class Externals := {
  PState : Type;
  safeParse : option Form -> ParseResult;
  notAllowedText : string -> string
}.

(** ** Rate limiter options ([express-rate-limit]) *)

Module RateLimit.

Record Options := {
  windowMs : Z;
  max : nat;
  standardHeaders : bool;
  legacyHeaders : bool;
  message : Json
}.

(** [Partial<RateLimitOptions>]: each property may be left out.  (A property
    that is present with the value [undefined] is not represented.) *)
Record Partial := {
  windowMs' : option Z;
  max' : option nat;
  standardHeaders' : option bool;
  legacyHeaders' : option bool;
  message' : option Json
}.

(** [rateLimit?: Partial<RateLimitOptions> | false] *)
Inductive Config :=
| Undefined
| False
| Given (o : Partial).

Definition none : Partial :=
  {| windowMs' := None; max' := None; standardHeaders' := None;
     legacyHeaders' := None; message' := None |}.

(** [{ ...base, ...config }]: spreading [undefined] adds nothing, and a
    property of [config] replaces the one of [base]. *)
Definition spread (base : Options) (config : Config) : Options :=
  match config with
  | Given o =>
      {| windowMs := default (windowMs base) (windowMs' o);
         max := default (max base) (max' o);
         standardHeaders := default (standardHeaders base) (standardHeaders' o);
         legacyHeaders := default (legacyHeaders base) (legacyHeaders' o);
         message := default (message base) (message' o) |}
  | _ => base
  end.

(** The properties the caller supplied, if any. *)
Definition supplied (config : Config) : Partial :=
  match config with
  | Given o => o
  | _ => none
  end.

End RateLimit.

Section Pipeline.

Context `{Externals}.

(** [OAuthServerProvider], as far as this handler uses it.  [revokeToken] is
    an optional method; [clientsStore] is the capability that resolves the
    credentials of a request to a Client. *)
Record OAuthServerProvider := {
  revokeToken :
    option (Client -> RevocationRequest -> PState -> Outcome * PState);
  clientsStore : option Form -> Client + OAuthError
}.

Record RevocationHandlerOptions := {
  provider : OAuthServerProvider;
  rateLimitConfig : RateLimit.Config
}.

(** Calls to the capabilities the pipeline consumes. *)
Inductive Event :=
| EvRateLimit (key : string)
| EvAuthenticate
| EvRevoke (c : Client) (data : RevocationRequest).

Record World := {
  hits : gmap string nat;    (* the limiter's counters, current window *)
  pstate : PState;           (* whatever the provider owns *)
  log : list Event
}.

Definition record (e : Event) (w : World) : World :=
  {| hits := hits w; pstate := pstate w; log := log w ++ [e] |}.

Definition count_hit (key : string) (w : World) : World :=
  {| hits := <[key := S (hits w !!! key)]> (hits w);
     pstate := pstate w; log := log w |}.

Definition with_pstate (ps : PState) (w : World) : World :=
  {| hits := hits w; pstate := ps; log := log w |}.

(** ** Middleware *)

Inductive StageResult :=
| Next (req : Request) (res : Response) (w : World)
| Done (res : Response) (w : World)
| Stalled (w : World).

Definition Stage := Request -> Response -> World -> StageResult.

(** Modelled from the spec: the [cors] package is not among the sources.
    The cross-origin stage permits calls from any origin and only affects
    response headers.  What the package itself does with a preflight
    (OPTIONS) request is not part of this model. *)
Definition cors : Stage := fun req res w =>
  Next req (setHeader "Access-Control-Allow-Origin" "*" res) w.

(** The response of the method gate to a method it does not allow. *)
Definition method_not_allowed (m : string) (res : Response) : Response :=
  json (toResponseObject
          {| cls := MethodNotAllowedError;
             description := notAllowedText m |})
       (status 405 res).

(** Modelled from the spec: [../middleware/allowedMethods.js] is not among
    the sources.  A method outside the list yields a method-not-allowed
    error response with status 405, and nothing else happens. *)
Definition allowedMethods (allowed : list string) : Stage := fun req res w =>
  if bool_decide (method req ∈ allowed) then Next req res w
  else
    Done (method_not_allowed (method req) res) w.

(** [express.urlencoded({ extended: false })]: the body parser fills
    [req.body] from the form on the wire.  The decoding is Express's own; a
    request of the model carries the decoded fields. *)
Definition urlencoded : Stage := fun req res w =>
  Next (with_body (Some (payload req)) req) res w.

(** Modelled from the spec: the [express-rate-limit] package is not among
    the sources.  The limiter counts the request against its key; once the
    count passes [max] it answers at once with the configured message (429)
    and does not call the later stages.  Windows expire in real time, which
    is outside the model: [hits] holds the counters of the current window.
    The rate-limit headers are left out. *)
Definition rateLimit (o : RateLimit.Options) : Stage := fun req res w =>
  let w' := record (EvRateLimit (ip req)) (count_hit (ip req) w) in
  if bool_decide (RateLimit.max o < hits w' !!! ip req) then
    Done (json (RateLimit.message o) (status 429 res)) w'
  else Next req res w'.

(** The status the handlers give a caught OAuthError. *)
Definition error_status (e : OAuthError) : nat :=
  if instanceof_ServerError e then 500 else 400.

(** Modelled from the spec: [../middleware/clientAuth.js] is not among the
    sources.  The stage resolves the request's credentials through the
    clients store; on success it attaches the Client to the request, on
    failure it ends the request with the error's response. *)
Definition authenticateClient (store : option Form -> Client + OAuthError)
  : Stage := fun req res w =>
  let w' := record EvAuthenticate w in
  match store (body req) with
  | inl c => Next (with_client c req) res w'
  | inr e => Done (json (toResponseObject e) (status (error_status e) res)) w'
  end.

(** ** The business stage: the [router.post("/", ...)] handler *)

(** How the [try] block ends. *)
Inductive Completion :=
| Normal
| Threw (t : Thrown)
| Suspended.

(** [provider.revokeToken!(client, data)]: the assertion is erased at run
    time, so calling a missing method throws a TypeError. *)
Definition call_revokeToken (p : OAuthServerProvider) (c : Client)
    (data : RevocationRequest) (w : World) : Outcome * World :=
  match revokeToken p with
  | None =>
      (Rejected (ThrownOther "TypeError: provider.revokeToken is not a function"), w)
  | Some f =>
      let '(o, ps) := f c data (pstate w) in
      (o, with_pstate ps (record (EvRevoke c data) w))
  end.

(** The statements of the [try] block up to the [await]. *)
Definition try_block (p : OAuthServerProvider) (req : Request) (w : World)
  : Completion * World :=
  match safeParse (body req) with
  | ParseError issues =>
      (Threw (ThrownOAuth {| cls := InvalidRequestError;
                             description := issues |}), w)
  | ParseOk data =>
      match client req with
      | None =>
          (Threw (ThrownOAuth {| cls := ServerError;
                                 description := "Internal Server Error" |}), w)
      | Some c =>
          match call_revokeToken p c data w with
          | (Resolved _, w') => (Normal, w')
          | (Rejected t, w') => (Threw t, w')
          | (Pending, w') => (Suspended, w')
          end
      end
  end.

(** The body of [new ServerError("Internal Server Error")], written out. *)
Definition internal_server_error : Json :=
  JObj [("error", JStr "server_error");
        ("error_description", JStr "Internal Server Error")].

(** The body the limiter sends unless the caller configures another. *)
Definition too_many_requests : Json :=
  toResponseObject
    {| cls := TooManyRequestsError;
       description :=
         "You have exceeded the rate limit for token revocation requests" |}.

(** The [catch] block. *)
Definition catch_block (error : Thrown) (res : Response) : Response :=
  match error with
  | ThrownOAuth e =>
      json (toResponseObject e)
           (status (if instanceof_ServerError e then 500 else 400) res)
  | ThrownOther _ =>
      let serverError :=
        {| cls := ServerError; description := "Internal Server Error" |} in
      json (toResponseObject serverError) (status 500 res)
  end.

Definition revoke_route (p : OAuthServerProvider) : Stage := fun req res w =>
  let res := setHeader "Cache-Control" "no-store" res in
  match try_block p req w with
  | (Normal, w') => Done (json (JObj []) (status 200 res)) w'
  | (Threw error, w') => Done (catch_block error res) w'
  | (Suspended, w') => Stalled w'
  end.

(** [router.post("/", handler)]: the route only matches POST.  Requests are
    those delivered to the path the router is mounted at. *)
Definition post (handler : Stage) : Stage := fun req res w =>
  if bool_decide (method req = "POST") then handler req res w
  else Next req res w.

(** ** The router *)

(** The entries of the router's stack, in the order [router.use] and
    [router.post] registered them. *)
Inductive Layer :=
| Cors
| AllowedMethods (allowed : list string)
| Urlencoded
| RateLimiter (o : RateLimit.Options)
| AuthenticateClient (store : option Form -> Client + OAuthError)
| PostRoute (p : OAuthServerProvider).

Definition layer_stage (l : Layer) : Stage :=
  match l with
  | Cors => cors
  | AllowedMethods allowed => allowedMethods allowed
  | Urlencoded => urlencoded
  | RateLimiter o => rateLimit o
  | AuthenticateClient store => authenticateClient store
  | PostRoute p => post (revoke_route p)
  end.

Definition Router := list Layer.

(** What becomes of one request. *)
Inductive Result :=
| Responded (res : Response) (w : World)
| Unhandled (req : Request) (res : Response) (w : World)
| NoResponse (w : World).

Fixpoint dispatch (stack : Router) (req : Request) (res : Response)
    (w : World) : Result :=
  match stack with
  | [] => Unhandled req res w
  | l :: rest =>
      match layer_stage l req res w with
      | Next req' res' w' => dispatch rest req' res' w'
      | Done res' w' => Responded res' w'
      | Stalled w' => NoResponse w'
      end
  end.

Definition world_of (r : Result) : World :=
  match r with
  | Responded _ w => w
  | Unhandled _ _ w => w
  | NoResponse w => w
  end.

(** The response object every request starts with. *)
Definition fresh : Response :=
  {| statusCode := 200; headers := ∅; sent := None |}.

(** A run of requests, one after the other, over the shared state. *)
Fixpoint serve (router : Router) (reqs : list Request) (w : World)
  : list Result * World :=
  match reqs with
  | [] => ([], w)
  | req :: rest =>
      let r := dispatch router req fresh w in
      let '(rs, w') := serve router rest (world_of r) in
      (r :: rs, w')
  end.

(** ** [revocationHandler] *)

Definition defaults : RateLimit.Options :=
  {| RateLimit.windowMs := 15 * 60 * 1000;
     RateLimit.max := 50;
     RateLimit.standardHeaders := true;
     RateLimit.legacyHeaders := false;
     RateLimit.message :=
       toResponseObject
         {| cls := TooManyRequestsError;
            description :=
              "You have exceeded the rate limit for token revocation requests"
         |} |}.

(** The layers the [if (rateLimitConfig !== false)] statement adds. *)
Definition limiter_layers (config : RateLimit.Config) : Router :=
  match config with
  | RateLimit.False => []
  | _ => [RateLimiter (RateLimit.spread defaults config)]
  end.

(** The result is the thrown Error's message, or the router. *)
Definition revocationHandler (opts : RevocationHandlerOptions)
  : string + Router :=
  match revokeToken (provider opts) with
  | None => inl "Auth provider does not support revoking tokens"
  | Some _ =>
      inr ([Cors; AllowedMethods ["POST"]; Urlencoded]
           ++ limiter_layers (rateLimitConfig opts)
           ++ [AuthenticateClient (clientsStore (provider opts));
               PostRoute (provider opts)])%list
  end.

(** ** Vocabulary for the properties *)

Definition is_rate_limit (e : Event) : Prop :=
match e with
| EvRateLimit _ => True
| _ => False
end.

Definition is_authenticate (e : Event) : Prop :=
match e with
| EvAuthenticate => True
| _ => False
end.

Definition is_revoke (e : Event) : Prop :=
match e with
| EvRevoke _ _ => True
| _ => False
end.

Definition is_limiter (l : Layer) : Prop :=
match l with
| RateLimiter _ => True
| _ => False
end.

(** From [w] to [w'] the limiter was never consulted: its counters are the
    same and the calls logged in between are not the limiter's. *)
Definition unlimited (w w' : World) : Prop :=
hits w' = hits w
/\ exists evs, log w' = log w ++ evs /\ Forall (fun e => ~ is_rate_limit e) evs.

(** From [w] to [w'] the provider's [revokeToken] was never called. *)
Definition unrevoked (w w' : World) : Prop :=
pstate w' = pstate w
/\ exists evs, log w' = log w ++ evs /\ Forall (fun e => ~ is_revoke e) evs.

(** The request was not answered by the limiter's rejection. *)
Definition not_rejected_429 (r : Result) : Prop :=
match r with
| Responded res _ => statusCode res <> 429
| _ => True
end.

(** The world a stage leaves behind. *)
Definition stage_world (r : StageResult) : World :=
match r with
| Next _ _ w => w
| Done _ w => w
| Stalled w => w
end.

(** How many times the log shows the authentication stage running. *)
Fixpoint authentications (evs : list Event) : nat :=
match evs with
| [] => 0
| EvAuthenticate :: rest => S (authentications rest)
| _ :: rest => authentications rest
end.


(** The same request with another value in [req.client]. *)
Definition with_any_client (c : option Client) (req : Request) : Request :=
{| method := method req; ip := ip req; payload := payload req;
   body := body req; client := c |}.

(** The part of the router that follows the limiter. *)
Definition after_limiter (p : OAuthServerProvider) : Router :=
[AuthenticateClient (clientsStore p); PostRoute p].

End Pipeline.

(** ** A small deployment

    A concrete schema, clients store and providers, on which the pipeline can
    be run. *)

Module Sample.

Fixpoint field (name : string) (f : Form) : option string :=
  match f with
  | [] => None
  | (k, v) :: rest => if bool_decide (k = name) then Some v else field name rest
  end.

(** Modelled from the spec: [shared/auth.js] is not among the sources.  A
    RevocationRequest has a required [token] and an optional
    [token_type_hint]; other fields are ignored. *)
Definition schema (b : option Form) : ParseResult :=
  match b with
  | None => ParseError "Required"
  | Some f =>
      match field "token" f with
      | None => ParseError "token: Required"
      | Some t =>
          ParseOk {| token := t; token_type_hint := field "token_type_hint" f |}
      end
  end.

(** The provider's state is the list of the tokens revoked so far. *)
Definition externals : Externals :=
  {| PState := list string;
     safeParse := schema;
     notAllowedText := fun m => "The method " +:+ m +:+ " is not allowed" |}.

Definition app : Client :=
  {| client_id := "app"; client_secret := Some "s3cret" |}.

Definition store (b : option Form) : Client + OAuthError :=
  match b with
  | Some f =>
      if bool_decide (field "client_id" f = Some "app"
                      ∧ field "client_secret" f = Some "s3cret")
      then inl app
      else inr {| cls := OtherOAuthError "invalid_client";
                  description := "Invalid client credentials" |}
  | None => inr {| cls := InvalidRequestError; description := "Required" |}
  end.

(** A provider that revokes whatever it is given and reports [v]. *)
Definition revoking (v : Json) : @OAuthServerProvider externals :=
  {| revokeToken := Some (fun _ data (ps : @PState externals) =>
                            (Resolved v, token data :: ps));
     clientsStore := store |}.

(** A provider whose [revokeToken] always rejects with [t]. *)
Definition failing (t : Thrown) : @OAuthServerProvider externals :=
  {| revokeToken := Some (fun _ _ ps => (Rejected t, ps));
     clientsStore := store |}.

(** A provider without [revokeToken]. *)
Definition mute : @OAuthServerProvider externals :=
  {| revokeToken := None; clientsStore := store |}.

Definition form : Form :=
  [("client_id", "app"); ("client_secret", "s3cret"); ("token", "t0k3n")].

(** A request as it arrives, and as the business stage sees it. *)
Definition arriving (m : string) (f : Form) : Request :=
  {| method := m; ip := "10.0.0.1"; payload := f;
     body := None; client := None |}.

Definition authenticated (f : Form) : Request :=
  {| method := "POST"; ip := "10.0.0.1"; payload := f;
     body := Some f; client := Some app |}.

(** A request in the business stage to which no Client was attached. *)
Definition unauthenticated (f : Form) : Request :=
{| method := "POST"; ip := "10.0.0.1"; payload := f;
   body := Some f; client := None |}.

Definition revocation : RevocationRequest :=
{| token := "t0k3n"; token_type_hint := None |}.

Definition options (p : @OAuthServerProvider externals)
    (config : RateLimit.Config) : @RevocationHandlerOptions externals :=
{| provider := p; rateLimitConfig := config |}.

Definition idle : @World externals :=
  {| hits := ∅; pstate := ([] : @PState externals); log := [] |}.

(** The limiter has already counted [n] requests of the sample address. *)
Definition busy (n : nat) : @World externals :=
  {| hits := {["10.0.0.1" := n]}; pstate := ([] : @PState externals);
     log := [] |}.

Definition custom_message : RateLimit.Partial :=
  {| RateLimit.windowMs' := None; RateLimit.max' := Some 2;
     RateLimit.standardHeaders' := None; RateLimit.legacyHeaders' := None;
     RateLimit.message' := Some (JStr "Slow down") |}.

(** A provider whose [revokeToken] never settles. *)
Definition hanging : @OAuthServerProvider externals :=
{| revokeToken := Some (fun _ _ ps => (Pending, ps));
   clientsStore := store |}.

(** The router [revocationHandler] builds, empty if construction throws. *)
Definition router_of (p : @OAuthServerProvider externals)
    (config : RateLimit.Config) : @Router externals :=
match revocationHandler (options p config) with
| inl _ => []
| inr router => router
end.

(** A POST whose credentials the clients store rejects. *)
Definition intruder : Request :=
arriving "POST" [("client_id", "app"); ("client_secret", "guess");
                 ("token", "t0k3n")].

(** What the client sees of a result. *)
Definition seen (r : @Result externals) : option (nat * option Json) :=
match r with
| Responded res _ => Some (statusCode res, sent res)
| _ => None
end.

(** The statuses and bodies of a run of requests against the router that
    [revocationHandler] builds; [None] if construction throws. *)
Definition run (p : @OAuthServerProvider externals) (config : RateLimit.Config)
    (reqs : list Request) : option (list (option (nat * option Json))) :=
match revocationHandler (options p config) with
| inl _ => None
| inr router => Some (map seen (serve router reqs idle).1)
end.

End Sample.

(** * The business stage *)

(** Case analysis along the branches of the route handler. *)
Ltac route_cases p req w :=
  unfold revoke_route, try_block, call_revokeToken;
  let data := fresh "data" in
  let issues := fresh "issues" in
  let c := fresh "c" in
  let f := fresh "f" in
  let v := fresh "v" in
  let t := fresh "t" in
  let ps := fresh "ps" in
  let Hparse := fresh "Hparse" in
  let Hclient := fresh "Hclient" in
  let Hf := fresh "Hf" in
  let Hcall := fresh "Hcall" in
  destruct (safeParse (body req)) as [data | issues] eqn:Hparse;
  [ destruct (client req) as [c |] eqn:Hclient;
    [ destruct (revokeToken p) as [f |] eqn:Hf;
      [ destruct (f c data (pstate w)) as [[v | t |] ps] eqn:Hcall | ] | ] | ];
  simpl.

Section Business.

Context `{Externals}.

Lemma no_store_set (res : Response) :
  headers (setHeader "Cache-Control" "no-store" res) !! "Cache-Control"
  = Some "no-store".
Proof. unfold setHeader; simpl. apply lookup_insert_eq. Qed.

(** X1: the business stage sets [Cache-Control: no-store] on every
    response it sends, the error responses included. *)
Lemma revoke_route_no_store p req res w r w' :
  revoke_route p req res w = Done r w' ->
  headers r !! "Cache-Control" = Some "no-store".
Proof.
  unfold revoke_route.
  destruct (try_block p req w) as [[| t |] w1]; intros E; inversion E; subst.
  - apply no_store_set.
  - destruct t; apply no_store_set.
Qed.

(** What the [try] block does when the provider is reached. *)
Lemma try_block_delegates p f req w c data :
  safeParse (body req) = ParseOk data ->
  client req = Some c ->
  revokeToken p = Some f ->
  try_block p req w =
    (match (f c data (pstate w)).1 with
     | Resolved _ => Normal
     | Rejected t => Threw t
     | Pending => Suspended
     end,
     with_pstate (f c data (pstate w)).2 (record (EvRevoke c data) w)).
Proof.
  intros Hparse Hclient Hf. unfold try_block, call_revokeToken.
  rewrite Hparse, Hclient, Hf.
  destruct (f c data (pstate w)) as [[v | t |] ps]; reflexivity.
Qed.

(** C1: for a request that validates and carries an authenticated Client,
    whenever the provider's [revokeToken] resolves, whatever value [v] it
    reports and whatever it did to its own state, the handler answers
    status 200 with body [{}] and the header [Cache-Control: no-store]. *)
Theorem revoke_success_is_200_empty p f req res w c data v ps :
  safeParse (body req) = ParseOk data ->
  client req = Some c ->
  revokeToken p = Some f ->
  f c data (pstate w) = (Resolved v, ps) ->
  exists r,
    revoke_route p req res w
      = Done r (with_pstate ps (record (EvRevoke c data) w))
    /\ statusCode r = 200
    /\ sent r = Some (JObj [])
    /\ headers r !! "Cache-Control" = Some "no-store".
Proof.
  intros Hparse Hclient Hf Hcall.
  unfold revoke_route.
  rewrite (try_block_delegates p f req w c data Hparse Hclient Hf), Hcall.
  simpl. eexists; split; [reflexivity |].
  repeat split. apply lookup_insert_eq.
Qed.

(** C2: when the [try] block throws an OAuthError, the response has status
    500 if the error is a ServerError and 400 for every other class, and
    its body is the error's rendered object. *)
Theorem protocol_error_status_and_body p req res w e w' :
  try_block p req w = (Threw (ThrownOAuth e), w') ->
  exists r,
    revoke_route p req res w = Done r w'
    /\ (cls e = ServerError -> statusCode r = 500)
    /\ (cls e <> ServerError -> statusCode r = 400)
    /\ sent r = Some (toResponseObject e).
Proof.
  intros Htry. unfold revoke_route. rewrite Htry. simpl.
  eexists; split; [reflexivity |].
  unfold instanceof_ServerError.
  destruct (cls e); simpl; repeat split; congruence.
Qed.

(** C3: when the [try] block throws anything that is not an OAuthError, the
    response is status 500 with the generic server_error body; the whole
    response is the same whatever the thrown value was. *)
Theorem internal_failure_is_generic_500 p req res w detail w' :
  try_block p req w = (Threw (ThrownOther detail), w') ->
  revoke_route p req res w
    = Done {| statusCode := 500;
              headers := <["Cache-Control" := "no-store"]> (headers res);
              sent := Some internal_server_error |} w'.
Proof.
  intros Htry. unfold revoke_route. rewrite Htry. reflexivity.
Qed.

(** A provider failure that is not an OAuthError reaches the [catch] block
    as it is. *)
Lemma try_block_provider_failure p f req w c data detail ps :
  safeParse (body req) = ParseOk data ->
  client req = Some c ->
  revokeToken p = Some f ->
  f c data (pstate w) = (Rejected (ThrownOther detail), ps) ->
  try_block p req w
    = (Threw (ThrownOther detail),
       with_pstate ps (record (EvRevoke c data) w)).
Proof.
  intros Hparse Hclient Hf Hcall.
  rewrite (try_block_delegates p f req w c data Hparse Hclient Hf), Hcall.
  reflexivity.
Qed.

(** C4: a body that fails validation is answered with the InvalidRequest
    error, status 400, and the world is left as it was: the provider's
    state is untouched and no call to [revokeToken] is logged. *)
Theorem invalid_body_is_400_without_revoke p req res w issues :
  safeParse (body req) = ParseError issues ->
  exists r,
    revoke_route p req res w = Done r w
    /\ statusCode r = 400
    /\ sent r = Some (toResponseObject
                        {| cls := InvalidRequestError;
                           description := issues |}).
Proof.
  intros Hparse. unfold revoke_route, try_block. rewrite Hparse. simpl.
  eexists; split; [reflexivity |]. split; reflexivity.
Qed.

(** C9, amended: when the body validates and no Client is attached to the
    request, the response is a ServerError with status 500, and the
    provider is not called. *)
Theorem missing_client_is_500 p req res w data :
  safeParse (body req) = ParseOk data ->
  client req = None ->
  exists r,
    revoke_route p req res w = Done r w
    /\ statusCode r = 500
    /\ sent r = Some internal_server_error.
Proof.
  intros Hparse Hclient. unfold revoke_route, try_block.
  rewrite Hparse, Hclient. simpl.
  eexists; split; [reflexivity |]. split; reflexivity.
Qed.

(** ** Further properties of the business stage *)

(** X2: whatever the business stage answers is either [200 {}] or the
    rendered body of an OAuthError, with status 500 exactly when that error
    is a ServerError and 400 otherwise. *)
Theorem business_stage_answers_success_or_rendered_error p req res w r w' :
  revoke_route p req res w = Done r w' ->
  (statusCode r = 200 /\ sent r = Some (JObj []))
  \/ exists e,
       statusCode r = (if instanceof_ServerError e then 500 else 400)
       /\ sent r = Some (toResponseObject e).
Proof.
  route_cases p req w; intros E; inversion E; subst; clear E.
  - left. split; reflexivity.
  - right. destruct t as [e | detail]; simpl.
    + exists e. split; reflexivity.
    + exists {| cls := ServerError; description := "Internal Server Error" |}.
      split; reflexivity.
  - right.
    exists {| cls := ServerError; description := "Internal Server Error" |}.
    split; reflexivity.
  - right.
    exists {| cls := ServerError; description := "Internal Server Error" |}.
    split; reflexivity.
  - right.
    exists {| cls := InvalidRequestError; description := issues |}.
    split; reflexivity.
Qed.

(** X3: the business stage leaves a request unanswered exactly when the body
    validates, a Client is attached, and the provider's promise never
    settles; the call is then logged and nothing is sent. *)
Theorem unanswered_iff_provider_pending p req res w w' :
  revoke_route p req res w = Stalled w'
  <-> exists data c f ps,
        safeParse (body req) = ParseOk data
        /\ client req = Some c
        /\ revokeToken p = Some f
        /\ f c data (pstate w) = (Pending, ps)
        /\ w' = with_pstate ps (record (EvRevoke c data) w).
Proof.
  split.
  - route_cases p req w; intros E; inversion E; subst.
    exists data, c, f, ps. repeat split; assumption.
  - intros (data & c & f & ps & Hparse & Hclient & Hf & Hcall & ->).
    unfold revoke_route.
    rewrite (try_block_delegates p f req w c data Hparse Hclient Hf), Hcall.
    reflexivity.
Qed.

(** X4: the business stage calls [revokeToken] at most once, and then with
    the Client attached to the request and the data the schema produced;
    when it does not call it, it leaves the world as it found it.  The
    limiter's counters are never touched. *)
Theorem business_stage_calls_provider_at_most_once p req res w :
  hits (stage_world (revoke_route p req res w)) = hits w
  /\ (stage_world (revoke_route p req res w) = w
      \/ exists data c f,
           safeParse (body req) = ParseOk data
           /\ client req = Some c
           /\ revokeToken p = Some f
           /\ stage_world (revoke_route p req res w)
              = with_pstate (f c data (pstate w)).2
                  (record (EvRevoke c data) w)).
Proof.
  route_cases p req w; (split; [reflexivity |]);
    try (left; reflexivity);
    right; exists data, c, f; rewrite Hcall; repeat split; reflexivity.
Qed.

(** X5: the business stage answers 200 only when the provider's
    [revokeToken] was called and resolved; the body is then [{}] and the
    provider's state is the one the call left. *)
Theorem status_200_only_after_provider_resolved p req res w r w' :
  revoke_route p req res w = Done r w' ->
  statusCode r = 200 ->
  exists data c f v,
    safeParse (body req) = ParseOk data
    /\ client req = Some c
    /\ revokeToken p = Some f
    /\ f c data (pstate w) = (Resolved v, pstate w')
    /\ log w' = log w ++ [EvRevoke c data]
    /\ sent r = Some (JObj []).
Proof.
  route_cases p req w; intros E; inversion E; subst; clear E; simpl;
    try discriminate.
  - intros _. exists data, c, f, v. repeat split; assumption.
  - destruct t as [e | detail]; simpl; [| discriminate].
    destruct (instanceof_ServerError e); discriminate.
Qed.

(** X6: the success response tells nothing about the token or about what the
    provider reported: any two requests that end in status 200, whatever
    their provider, body, Client and world, get the very same response. *)
Theorem success_response_reveals_nothing p1 p2 req1 req2 res w1 w2 r1 r2 w1' w2' :
  revoke_route p1 req1 res w1 = Done r1 w1' ->
  revoke_route p2 req2 res w2 = Done r2 w2' ->
  statusCode r1 = 200 ->
  statusCode r2 = 200 ->
  r1 = r2.
Proof.
  assert (Hone : forall p req w r w',
            revoke_route p req res w = Done r w' -> statusCode r = 200 ->
            r = json (JObj [])
                  (status 200 (setHeader "Cache-Control" "no-store" res))).
  { intros p req w r w'.
    route_cases p req w; intros E; inversion E; subst; clear E; simpl;
      try discriminate; [reflexivity |].
    destruct t as [e | detail]; simpl; [| discriminate].
    destruct (instanceof_ServerError e); discriminate. }
  intros H1 H2 Hs1 Hs2.
  rewrite (Hone p1 req1 w1 r1 w1' H1 Hs1), (Hone p2 req2 w2 r2 w2' H2 Hs2).
  reflexivity.
Qed.

End Business.

(** * The assembled endpoint *)

Section Endpoint.

Context `{Externals}.

(** ** Construction *)

(** What [revocationHandler] returns when it returns: the provider has a
    [revokeToken], and the stack is the one the source registers. *)
Lemma router_shape opts router :
  revocationHandler opts = inr router ->
  (exists f, revokeToken (provider opts) = Some f)
  /\ router = [Cors; AllowedMethods ["POST"]; Urlencoded]
              ++ limiter_layers (rateLimitConfig opts)
              ++ after_limiter (provider opts).
Proof.
  unfold revocationHandler.
  destruct (revokeToken (provider opts)) as [f |]; intros E; inversion E.
  split; [eauto | reflexivity].
Qed.

(** ** The first three layers *)

Lemma method_in_post (m : string) : m ∈ ["POST"] <-> m = "POST".
Proof.
  rewrite list_elem_of_In. simpl. split.
  - intros [-> | []]. reflexivity.
  - intros ->. left. reflexivity.
Qed.

(** A request that is not a POST stops at the method gate. *)
Lemma dispatch_gate_rejects rest req res w :
  method req <> "POST" ->
  dispatch ([Cors; AllowedMethods ["POST"]; Urlencoded] ++ rest) req res w
  = Responded
      (method_not_allowed (method req)
         (setHeader "Access-Control-Allow-Origin" "*" res)) w.
Proof.
  intros Hm. simpl. unfold allowedMethods.
  rewrite bool_decide_eq_false_2; [reflexivity |].
  rewrite method_in_post. exact Hm.
Qed.

(** A POST goes through them, with its body parsed. *)
Lemma dispatch_gate_passes rest req res w :
  method req = "POST" ->
  dispatch ([Cors; AllowedMethods ["POST"]; Urlencoded] ++ rest) req res w
  = dispatch rest (with_body (Some (payload req)) req)
      (setHeader "Access-Control-Allow-Origin" "*" res) w.
Proof.
  intros Hm. simpl. unfold allowedMethods.
  rewrite bool_decide_eq_true_2; [reflexivity |].
  rewrite method_in_post. exact Hm.
Qed.

(** ** The limiter *)

Lemma count_hit_lookup key (w : World) :
  hits (record (EvRateLimit key) (count_hit key w)) !!! key
  = S (hits w !!! key).
Proof. simpl. apply lookup_total_insert_eq. Qed.

(** Over the cap, the limiter answers and nothing after it runs. *)
Lemma dispatch_limiter_rejects o rest req res w :
  RateLimit.max o < S (hits w !!! ip req) ->
  dispatch (RateLimiter o :: rest) req res w
  = Responded (json (RateLimit.message o) (status 429 res))
      (record (EvRateLimit (ip req)) (count_hit (ip req) w)).
Proof.
  intros Hover. simpl. unfold rateLimit.
  rewrite count_hit_lookup.
  rewrite bool_decide_eq_true_2; [reflexivity | exact Hover].
Qed.

(** Under the cap, the request is counted and goes on. *)
Lemma dispatch_limiter_admits o rest req res w :
  S (hits w !!! ip req) <= RateLimit.max o ->
  dispatch (RateLimiter o :: rest) req res w
  = dispatch rest req res
      (record (EvRateLimit (ip req)) (count_hit (ip req) w)).
Proof.
  intros Hunder. simpl. unfold rateLimit.
  rewrite count_hit_lookup.
  rewrite bool_decide_eq_false_2; [reflexivity | lia].
Qed.

(** ** Stacks without a limiter *)

Lemma unlimited_refl (w : World) : unlimited w w.
Proof.
  split; [reflexivity |]. exists []. split; [| constructor].
  symmetry. apply app_nil_r.
Qed.

Lemma unlimited_trans (w1 w2 w3 : World) :
  unlimited w1 w2 -> unlimited w2 w3 -> unlimited w1 w3.
Proof.
  intros [Hh1 (evs1 & Hl1 & Hq1)] [Hh2 (evs2 & Hl2 & Hq2)].
  split; [congruence |].
  exists (evs1 ++ evs2). split.
  - rewrite Hl2, Hl1. symmetry. apply app_assoc.
  - apply Forall_app. split; assumption.
Qed.

Lemma unlimited_record e (w : World) :
  ~ is_rate_limit e -> unlimited w (record e w).
Proof.
  intros He. split; [reflexivity |].
  exists [e]. split; [reflexivity |]. constructor; [exact He | constructor].
Qed.

Lemma unlimited_call p c data (w : World) :
  unlimited w (call_revokeToken p c data w).2.
Proof.
  unfold call_revokeToken.
  destruct (revokeToken p) as [f |]; [| apply unlimited_refl].
  destruct (f c data (pstate w)) as [o ps]. simpl.
  split; [reflexivity |].
  exists [EvRevoke c data]. split; [reflexivity |].
  constructor; [intros [] | constructor].
Qed.

Lemma unlimited_try_block p req (w : World) :
  unlimited w (try_block p req w).2.
Proof.
  unfold try_block.
  destruct (safeParse (body req)); [| apply unlimited_refl].
  destruct (client req) as [c |]; [| apply unlimited_refl].
  pose proof (unlimited_call p c data w) as Hcall.
  destruct (call_revokeToken p c data w) as [[v | t |] w']; exact Hcall.
Qed.

Lemma stage_unlimited l req res w :
  ~ is_limiter l -> unlimited w (stage_world (layer_stage l req res w)).
Proof.
  destruct l as [| allowed | | o | store | p]; simpl; intros Hl.
  - apply unlimited_refl.
  - unfold allowedMethods. case_bool_decide; apply unlimited_refl.
  - apply unlimited_refl.
  - destruct Hl. exact I.
  - unfold authenticateClient.
    destruct (store (body req)); simpl; apply unlimited_record; intros [].
  - unfold post. case_bool_decide; [| apply unlimited_refl].
    unfold revoke_route.
    pose proof (unlimited_try_block p req w) as Htry.
    destruct (try_block p req w) as [[| t |] w']; exact Htry.
Qed.

Lemma error_status_not_429 e : error_status e <> 429.
Proof. unfold error_status. destruct (instanceof_ServerError e); lia. Qed.

Lemma stage_not_429 l req res w res' w' :
  ~ is_limiter l ->
  layer_stage l req res w = Done res' w' -> statusCode res' <> 429.
Proof.
  destruct l as [| allowed | | o | store | p]; simpl; intros Hl.
  - unfold cors. discriminate.
  - unfold allowedMethods. case_bool_decide; [discriminate |].
    intros E; inversion E; subst. simpl. lia.
  - unfold urlencoded. discriminate.
  - destruct Hl. exact I.
  - unfold authenticateClient. destruct (store (body req)) as [c | e];
      [discriminate |].
    intros E; inversion E; subst. simpl. apply error_status_not_429.
  - unfold post. case_bool_decide; [| discriminate].
    unfold revoke_route.
    destruct (try_block p req w) as [[| t |] w1]; intros E; inversion E; subst.
    + simpl. lia.
    + destruct t as [e |]; simpl; [| lia].
      destruct (instanceof_ServerError e); lia.
Qed.

Lemma dispatch_unlimited stack :
  Forall (fun l => ~ is_limiter l) stack ->
  forall req res w,
    unlimited w (world_of (dispatch stack req res w))
    /\ not_rejected_429 (dispatch stack req res w).
Proof.
  induction 1 as [| l rest Hl Hrest IH]; intros req res w.
  - simpl. split; [apply unlimited_refl | exact I].
  - simpl.
    pose proof (stage_unlimited l req res w Hl) as Hstage.
    pose proof (stage_not_429 l req res w) as Hcode.
    destruct (layer_stage l req res w) as [req' res' w' | res' w' | w'];
      simpl in *.
    + destruct (IH req' res' w') as [Hu Hn]. split; [| exact Hn].
      eapply unlimited_trans; eassumption.
    + split; [exact Hstage |]. eapply Hcode; [exact Hl | reflexivity].
    + split; [exact Hstage | exact I].
Qed.

Lemma serve_unlimited stack :
  Forall (fun l => ~ is_limiter l) stack ->
  forall reqs w,
    unlimited w (serve stack reqs w).2
    /\ Forall not_rejected_429 (serve stack reqs w).1.
Proof.
  intros Hstack reqs. induction reqs as [| req rest IH]; intros w.
  - simpl. split; [apply unlimited_refl | constructor].
  - simpl.
    destruct (dispatch_unlimited stack Hstack req fresh w) as [Hu Hn].
    destruct (IH (world_of (dispatch stack req fresh w))) as [Hu' Hn'].
    destruct (serve stack rest (world_of (dispatch stack req fresh w)))
      as [rs w'].
    simpl in *. split.
    + eapply unlimited_trans; eassumption.
    + constructor; assumption.
Qed.

Lemma limiter_layers_false :
  limiter_layers RateLimit.False = [].
Proof. reflexivity. Qed.

Lemma limiter_layers_installed config :
  config <> RateLimit.False ->
  limiter_layers config = [RateLimiter (RateLimit.spread defaults config)].
Proof. destruct config; [reflexivity | congruence | reflexivity]. Qed.

(** ** After the limiter *)

(** Authentication and the business stage, for a POST whose credentials the
    clients store accepts. *)
Lemma dispatch_after_limiter p req res w c :
  method req = "POST" ->
  clientsStore p (body req) = inl c ->
  dispatch (after_limiter p) req res w
  = match revoke_route p (with_client c req) res (record EvAuthenticate w) with
    | Next req' res' w' => Unhandled req' res' w'
    | Done res' w' => Responded res' w'
    | Stalled w' => NoResponse w'
    end.
Proof.
  intros Hm Hstore. simpl. unfold authenticateClient. rewrite Hstore.
  unfold post. simpl. rewrite bool_decide_eq_true_2 by exact Hm.
  destruct (revoke_route p (with_client c req) res (record EvAuthenticate w));
    reflexivity.
Qed.

(** X7: the endpoint as a whole on a POST that the limiter admits, whose
    credentials the clients store accepts, whose body validates and whose
    revocation the provider resolves: the response is [200 {}] with
    [Cache-Control: no-store], and the provider's state is the one its call
    left. *)
Lemma endpoint_success opts router f req res w c data v ps :
  revocationHandler opts = inr router ->
  method req = "POST" ->
  (rateLimitConfig opts = RateLimit.False
   \/ S (hits w !!! ip req)
      <= RateLimit.max (RateLimit.spread defaults (rateLimitConfig opts))) ->
  clientsStore (provider opts) (Some (payload req)) = inl c ->
  safeParse (Some (payload req)) = ParseOk data ->
  revokeToken (provider opts) = Some f ->
  f c data (pstate w) = (Resolved v, ps) ->
  exists r w',
    dispatch router req res w = Responded r w'
    /\ statusCode r = 200
    /\ sent r = Some (JObj [])
    /\ headers r !! "Cache-Control" = Some "no-store"
    /\ pstate w' = ps.
Proof.
  intros Hrouter Hm Hlimit Hstore Hparse Hf Hcall.
  destruct (router_shape opts router Hrouter) as [_ ->].
  rewrite dispatch_gate_passes by exact Hm.
  set (req1 := with_body (Some (payload req)) req).
  set (res1 := setHeader "Access-Control-Allow-Origin" "*" res).
  assert (Hgo : forall w1, pstate w1 = pstate w ->
            exists r w', dispatch (after_limiter (provider opts)) req1 res1 w1
                         = Responded r w'
              /\ statusCode r = 200 /\ sent r = Some (JObj [])
              /\ headers r !! "Cache-Control" = Some "no-store"
              /\ pstate w' = ps).
  { intros w1 Hps.
    rewrite (dispatch_after_limiter _ req1 res1 w1 c) by (exact Hm || exact Hstore).
    unfold revoke_route.
    rewrite (try_block_delegates (provider opts) f _ _ c data)
      by (exact Hparse || reflexivity || exact Hf).
    simpl pstate. rewrite Hps, Hcall. simpl.
    do 2 eexists. split; [reflexivity |].
    repeat split. apply lookup_insert_eq. }
  destruct Hlimit as [Hoff | Hunder].
  - rewrite Hoff. simpl app. apply Hgo. reflexivity.
  - destruct (rateLimitConfig opts) as [| | given] eqn:Hconfig.
    + simpl app. rewrite dispatch_limiter_admits by exact Hunder.
      apply Hgo. reflexivity.
    + simpl app. apply Hgo. reflexivity.
    + simpl app. rewrite dispatch_limiter_admits by exact Hunder.
      apply Hgo. reflexivity.
Qed.

(** ** Requests whose body does not validate never reach the provider *)

Lemma unrevoked_refl (w : World) : unrevoked w w.
Proof.
  split; [reflexivity |]. exists []. split; [| constructor].
  symmetry. apply app_nil_r.
Qed.

Lemma unrevoked_trans (w1 w2 w3 : World) :
  unrevoked w1 w2 -> unrevoked w2 w3 -> unrevoked w1 w3.
Proof.
  intros [Hp1 (evs1 & Hl1 & Hq1)] [Hp2 (evs2 & Hl2 & Hq2)].
  split; [congruence |].
  exists (evs1 ++ evs2). split.
  - rewrite Hl2, Hl1. symmetry. apply app_assoc.
  - apply Forall_app. split; assumption.
Qed.

Lemma unrevoked_record e (w : World) :
  ~ is_revoke e -> unrevoked w (record e w).
Proof.
  intros He. split; [reflexivity |].
  exists [e]. split; [reflexivity |]. constructor; [exact He | constructor].
Qed.

Lemma unrevoked_count_hit key (w : World) : unrevoked w (count_hit key w).
Proof.
  split; [reflexivity |]. exists []. split; [| constructor].
  symmetry. apply app_nil_r.
Qed.

Lemma after_limiter_invalid_body p req res w issues :
  method req = "POST" ->
  safeParse (body req) = ParseError issues ->
  world_of (dispatch (after_limiter p) req res w) = record EvAuthenticate w.
Proof.
  intros Hm Hparse. simpl. unfold authenticateClient.
  destruct (clientsStore p (body req)) as [c | e]; [| reflexivity].
  unfold post. simpl. rewrite bool_decide_eq_true_2 by exact Hm.
  unfold revoke_route, try_block. simpl. rewrite Hparse. reflexivity.
Qed.

Lemma endpoint_invalid_body_unrevoked opts router req res w issues :
  revocationHandler opts = inr router ->
  safeParse (Some (payload req)) = ParseError issues ->
  unrevoked w (world_of (dispatch router req res w)).
Proof.
  intros Hrouter Hparse.
  destruct (router_shape opts router Hrouter) as [_ ->].
  destruct (decide (method req = "POST")) as [Hm | Hm].
  2: { rewrite dispatch_gate_rejects by exact Hm. apply unrevoked_refl. }
  rewrite dispatch_gate_passes by exact Hm.
  set (req1 := with_body (Some (payload req)) req).
  set (res1 := setHeader "Access-Control-Allow-Origin" "*" res).
  assert (Hrest : forall w1, unrevoked w w1 ->
            unrevoked w (world_of (dispatch (after_limiter (provider opts))
                                     req1 res1 w1))).
  { intros w1 Hw1.
    rewrite (after_limiter_invalid_body _ req1 res1 w1 issues)
      by (exact Hm || exact Hparse).
    eapply unrevoked_trans; [exact Hw1 |].
    apply unrevoked_record. intros []. }
  assert (Hcounted : unrevoked w
            (record (EvRateLimit (ip req1)) (count_hit (ip req1) w))).
  { eapply unrevoked_trans; [apply unrevoked_count_hit |].
    apply unrevoked_record. intros []. }
  assert (Hlimited : forall o,
            unrevoked w (world_of (dispatch
              (RateLimiter o :: after_limiter (provider opts)) req1 res1 w))).
  { intros o.
    destruct (le_lt_dec (S (hits w !!! ip req1)) (RateLimit.max o))
      as [Hunder | Hover].
    - rewrite dispatch_limiter_admits by exact Hunder.
      apply Hrest. exact Hcounted.
    - rewrite dispatch_limiter_rejects by exact Hover. exact Hcounted. }
  destruct (rateLimitConfig opts) as [| | given]; simpl app.
  - apply Hlimited.
  - apply Hrest. apply unrevoked_refl.
  - apply Hlimited.
Qed.

(** ** Every request is settled inside the router *)


(** ** The claims about the assembled endpoint *)

(** C5: a request whose method is not POST is answered by the method gate
    with the method-not-allowed error, status 405; the world is left exactly
    as it was, so the limiter counted nothing, and neither authentication nor
    [revokeToken] was called. *)
Theorem non_post_is_405_and_touches_nothing opts router req res w :
  revocationHandler opts = inr router ->
  method req <> "POST" ->
  exists r,
    dispatch router req res w = Responded r w
    /\ statusCode r = 405
    /\ sent r = Some (toResponseObject
                        {| cls := MethodNotAllowedError;
                           description := notAllowedText (method req) |}).
Proof.
  intros Hrouter Hm.
  destruct (router_shape opts router Hrouter) as [_ ->].
  rewrite dispatch_gate_rejects by exact Hm.
  eexists; split; [reflexivity |]. split; reflexivity.
Qed.

(** C6: with [rateLimit: false] the router has no limiter layer, and over
    any run of requests the limiter's counters stay as they were, no call to
    the limiter is logged and no response has the limiter's status.  With any
    other value the limiter is installed after the body parser and before
    authentication, with every option the caller supplied and, for the
    others, a 15 minute window, 50 requests, standard headers on, legacy
    headers off and the TooManyRequests body as message. *)
Theorem rate_limit_disabled_or_merged opts router :
  revocationHandler opts = inr router ->
  (rateLimitConfig opts = RateLimit.False ->
   Forall (fun l => ~ is_limiter l) router
   /\ forall reqs w,
        unlimited w (serve router reqs w).2
        /\ Forall not_rejected_429 (serve router reqs w).1)
  /\ (rateLimitConfig opts <> RateLimit.False ->
      exists o,
        router = [Cors; AllowedMethods ["POST"]; Urlencoded; RateLimiter o;
                  AuthenticateClient (clientsStore (provider opts));
                  PostRoute (provider opts)]
        /\ let given := RateLimit.supplied (rateLimitConfig opts) in
           RateLimit.windowMs o
             = default 900000%Z (RateLimit.windowMs' given)
           /\ RateLimit.max o = default 50 (RateLimit.max' given)
           /\ RateLimit.standardHeaders o
              = default true (RateLimit.standardHeaders' given)
           /\ RateLimit.legacyHeaders o
              = default false (RateLimit.legacyHeaders' given)
           /\ RateLimit.message o
              = default too_many_requests (RateLimit.message' given)).
Proof.
  intros Hrouter.
  destruct (router_shape opts router Hrouter) as [_ ->].
  split.
  - intros ->. simpl.
    assert (Hstack : Forall (fun l => ~ is_limiter l)
              [Cors; AllowedMethods ["POST"]; Urlencoded;
               AuthenticateClient (clientsStore (provider opts));
               PostRoute (provider opts)]).
    { repeat constructor; intros []. }
    split; [exact Hstack |].
    intros reqs w. apply serve_unlimited. exact Hstack.
  - intros Hon. rewrite limiter_layers_installed by exact Hon.
    eexists. split; [reflexivity |].
    destruct (rateLimitConfig opts) as [| | given]; [| congruence |];
      simpl; repeat split; reflexivity.
Qed.

(** C7, amended: a POST that takes its address over the configured cap is
    answered by the limiter with the configured message, which is the
    TooManyRequests body unless the caller supplied a message of their own;
    the only call logged is the limiter's and the provider's state is
    untouched, so neither authentication nor [revokeToken] ran. *)
Theorem over_cap_stops_at_limiter opts router req res w :
  revocationHandler opts = inr router ->
  rateLimitConfig opts <> RateLimit.False ->
  method req = "POST" ->
  RateLimit.max (RateLimit.spread defaults (rateLimitConfig opts))
    < S (hits w !!! ip req) ->
  exists r w',
    dispatch router req res w = Responded r w'
    /\ statusCode r = 429
    /\ sent r = Some (RateLimit.message
                        (RateLimit.spread defaults (rateLimitConfig opts)))
    /\ (RateLimit.message' (RateLimit.supplied (rateLimitConfig opts)) = None
        -> sent r = Some too_many_requests)
    /\ pstate w' = pstate w
    /\ log w' = log w ++ [EvRateLimit (ip req)].
Proof.
  intros Hrouter Hon Hm Hover.
  destruct (router_shape opts router Hrouter) as [_ ->].
  rewrite dispatch_gate_passes by exact Hm.
  rewrite limiter_layers_installed by exact Hon. simpl app.
  rewrite dispatch_limiter_rejects by exact Hover.
  do 2 eexists. split; [reflexivity |].
  repeat split.
  intros Hnone. simpl.
  destruct (rateLimitConfig opts) as [| | given]; simpl in *;
    [reflexivity | congruence |].
  rewrite Hnone. reflexivity.
Qed.

(** C8: with a provider that has no [revokeToken], [revocationHandler] throws
    the Error and returns no router at all. *)
Theorem construction_throws_without_revokeToken opts :
  revokeToken (provider opts) = None ->
  revocationHandler opts
    = inl "Auth provider does not support revoking tokens"
  /\ forall router, revocationHandler opts <> inr router.
Proof.
  intros Hnone. unfold revocationHandler. rewrite Hnone.
  split; [reflexivity | discriminate].
Qed.

(** C10: every router that [revocationHandler] returns was built from a
    provider whose [revokeToken] is defined; the business stage in it holds
    that very provider, and its call of [revokeToken] is the call of that
    function, never the TypeError of a missing method. *)
Theorem returned_router_can_call_revokeToken opts router :
  revocationHandler opts = inr router ->
  exists f,
    revokeToken (provider opts) = Some f
    /\ (forall p, PostRoute p ∈ router -> p = provider opts)
    /\ forall c data w,
         call_revokeToken (provider opts) c data w
         = ((f c data (pstate w)).1,
            with_pstate (f c data (pstate w)).2 (record (EvRevoke c data) w)).
Proof.
  intros Hrouter.
  destruct (router_shape opts router Hrouter) as [[f Hf] ->].
  exists f. split; [exact Hf |]. split.
  - intros p Hin. apply list_elem_of_In in Hin.
    destruct (rateLimitConfig opts); simpl in Hin;
      repeat (destruct Hin as [Hin | Hin]; try discriminate Hin);
      try (inversion Hin; reflexivity); destruct Hin.
  - intros c data w. unfold call_revokeToken. rewrite Hf.
    destruct (f c data (pstate w)); reflexivity.
Qed.

(** ** The calls one request causes *)

Lemma authentications_app evs1 evs2 :
  authentications (evs1 ++ evs2)
  = authentications evs1 + authentications evs2.
Proof.
  induction evs1 as [| e evs1 IH]; [reflexivity |].
  destruct e; simpl; rewrite IH; reflexivity.
Qed.

(** Authentication and the business stage: the counters stay, authentication
    is logged once, and the provider is called after it or not at all. *)
Lemma after_limiter_trace p req res w :
  method req = "POST" ->
  hits (world_of (dispatch (after_limiter p) req res w)) = hits w
  /\ ((log (world_of (dispatch (after_limiter p) req res w))
       = log w ++ [EvAuthenticate]
       /\ pstate (world_of (dispatch (after_limiter p) req res w)) = pstate w)
      \/ exists data c f,
           clientsStore p (body req) = inl c
           /\ safeParse (body req) = ParseOk data
           /\ revokeToken p = Some f
           /\ log (world_of (dispatch (after_limiter p) req res w))
              = log w ++ [EvAuthenticate; EvRevoke c data]
           /\ pstate (world_of (dispatch (after_limiter p) req res w))
              = (f c data (pstate w)).2).
Proof.
  intros Hm. simpl. unfold authenticateClient.
  destruct (clientsStore p (body req)) as [c | e] eqn:Hstore.
  2: { simpl. split; [reflexivity |]. left. split; reflexivity. }
  unfold post. simpl. rewrite bool_decide_eq_true_2 by exact Hm.
  unfold revoke_route, try_block, call_revokeToken. simpl.
  destruct (safeParse (body req)) as [data | issues] eqn:Hparse; simpl.
  2: { split; [reflexivity |]. left. split; reflexivity. }
  destruct (revokeToken p) as [f |] eqn:Hf; simpl.
  2: { split; [reflexivity |]. left. split; reflexivity. }
  destruct (f c data (pstate w)) as [[v | t |] ps] eqn:Hcall; simpl;
    (split; [reflexivity |]); right; exists data, c, f;
    rewrite Hcall; simpl; rewrite <- app_assoc; repeat split; reflexivity.
Qed.


(** ** The limiter's budget *)


(** One request of address [k] never raises the number of authentications
    by more than it lowers what is left of the budget of [k]. *)
Lemma dispatch_spends_budget opts router req res w :
  revocationHandler opts = inr router ->
  rateLimitConfig opts <> RateLimit.False ->
  authentications (log (world_of (dispatch router req res w)))
  + (RateLimit.max (RateLimit.spread defaults (rateLimitConfig opts))
     - hits (world_of (dispatch router req res w)) !!! ip req)
  <= authentications (log w)
     + (RateLimit.max (RateLimit.spread defaults (rateLimitConfig opts))
        - hits w !!! ip req).
Proof.
  intros Hrouter Hon.
  destruct (router_shape opts router Hrouter) as [_ ->].
  destruct (decide (method req = "POST")) as [Hm | Hm].
  2: { rewrite dispatch_gate_rejects by exact Hm. simpl. lia. }
  rewrite dispatch_gate_passes by exact Hm.
  rewrite limiter_layers_installed by exact Hon. simpl app.
  set (o := RateLimit.spread defaults (rateLimitConfig opts)).
  set (req1 := with_body (Some (payload req)) req).
  set (res1 := setHeader "Access-Control-Allow-Origin" "*" res).
  set (w1 := record (EvRateLimit (ip req1)) (count_hit (ip req1) w)).
  assert (Hhits : hits w1 !!! ip req = S (hits w !!! ip req)).
  { apply count_hit_lookup. }
  assert (Hlog : authentications (log w1) = authentications (log w)).
  { unfold w1. simpl. rewrite authentications_app. simpl. lia. }
  destruct (le_lt_dec (S (hits w !!! ip req1)) (RateLimit.max o))
    as [Hunder | Hover].
  - rewrite dispatch_limiter_admits by exact Hunder. fold w1.
    destruct (after_limiter_trace (provider opts) req1 res1 w1 Hm)
      as [Hh [[Hl _] | (data & c & f & _ & _ & _ & Hl & _)]];
      rewrite Hh, Hl, Hhits, authentications_app, Hlog; simpl in *; lia.
  - rewrite dispatch_limiter_rejects by exact Hover. fold w1.
    simpl world_of. rewrite Hhits, Hlog. lia.
Qed.

(** X11: the cap.  With the limiter installed, over any run of requests of
    one address the authentication stage runs at most as many times as the
    budget of that address had left: [max] times from a fresh window.  The
    requests beyond that never reach authentication or the provider. *)
Theorem at_most_max_reach_authentication opts router k reqs :
  revocationHandler opts = inr router ->
  rateLimitConfig opts <> RateLimit.False ->
  Forall (fun req => ip req = k) reqs ->
  forall w,
    authentications (log (serve router reqs w).2)
    <= authentications (log w)
       + (RateLimit.max (RateLimit.spread defaults (rateLimitConfig opts))
          - hits w !!! k).
Proof.
  intros Hrouter Hon Hreqs.
  induction Hreqs as [| req rest Hk Hrest IH]; intros w.
  - simpl. lia.
  - simpl.
    pose proof (dispatch_spends_budget opts router req fresh w Hrouter Hon)
      as Hstep.
    specialize (IH (world_of (dispatch router req fresh w))).
    destruct (serve router rest (world_of (dispatch router req fresh w)))
      as [rs w'].
    simpl in *. rewrite Hk in Hstep. lia.
Qed.

(** ** The Client comes from authentication alone *)

(** X12: whatever [req.client] holds when the request arrives has no effect:
    the router does the same, and in the business stage uses the Client that
    authentication resolved. *)
Theorem arriving_client_is_ignored opts router req res w c' :
  revocationHandler opts = inr router ->
  dispatch router (with_any_client c' req) res w = dispatch router req res w.
Proof.
  intros Hrouter.
  destruct (router_shape opts router Hrouter) as [_ ->].
  assert (Hrest : forall w1,
            dispatch (after_limiter (provider opts))
              (with_body (Some (payload req)) (with_any_client c' req))
              (setHeader "Access-Control-Allow-Origin" "*" res) w1
            = dispatch (after_limiter (provider opts))
                (with_body (Some (payload req)) req)
                (setHeader "Access-Control-Allow-Origin" "*" res) w1).
  { intros w1. simpl. unfold authenticateClient. simpl.
    destruct (clientsStore (provider opts) (Some (payload req))) as [c | e];
      reflexivity. }
  destruct (decide (method req = "POST")) as [Hm | Hm].
  2: { rewrite !dispatch_gate_rejects by exact Hm. reflexivity. }
  rewrite (dispatch_gate_passes _ req) by exact Hm.
  rewrite (dispatch_gate_passes _ (with_any_client c' req)) by exact Hm.
  simpl payload.
  destruct (rateLimitConfig opts) as [| | given]; simpl app;
    try apply Hrest;
    simpl; unfold rateLimit; simpl; case_bool_decide;
      solve [reflexivity | apply Hrest].
Qed.

End Endpoint.

(** * The claims on the sample deployment *)

#[local] Existing Instance Sample.externals.

Lemma revoke_success_is_200_empty_witness :
  safeParse (body (Sample.authenticated Sample.form))
    = ParseOk Sample.revocation
  /\ client (Sample.authenticated Sample.form) = Some Sample.app
  /\ exists r,
       revoke_route (Sample.revoking (JStr "no such token"))
         (Sample.authenticated Sample.form) fresh Sample.idle
       = Done r (with_pstate ["t0k3n"]
                   (record (EvRevoke Sample.app Sample.revocation) Sample.idle))
       /\ statusCode r = 200
       /\ sent r = Some (JObj [])
       /\ headers r !! "Cache-Control" = Some "no-store".
Proof.
  split; [reflexivity |]. split; [reflexivity |].
  eapply (revoke_success_is_200_empty (Sample.revoking (JStr "no such token")));
    reflexivity.
Defined.

Lemma protocol_error_status_and_body_witness :
  try_block
    (Sample.failing
       (ThrownOAuth {| cls := OtherOAuthError "unsupported_token_type";
                       description := "Cannot revoke this" |}))
    (Sample.authenticated Sample.form) Sample.idle
  = (Threw (ThrownOAuth {| cls := OtherOAuthError "unsupported_token_type";
                           description := "Cannot revoke this" |}),
     record (EvRevoke Sample.app Sample.revocation) Sample.idle)
  /\ exists r,
    revoke_route
      (Sample.failing
         (ThrownOAuth {| cls := OtherOAuthError "unsupported_token_type";
                         description := "Cannot revoke this" |}))
      (Sample.authenticated Sample.form) fresh Sample.idle
    = Done r (record (EvRevoke Sample.app Sample.revocation) Sample.idle)
    /\ (OtherOAuthError "unsupported_token_type" = ServerError
        -> statusCode r = 500)
    /\ (OtherOAuthError "unsupported_token_type" <> ServerError
        -> statusCode r = 400)
    /\ sent r = Some (JObj [("error", JStr "unsupported_token_type");
                            ("error_description", JStr "Cannot revoke this")]).
Proof.
  split; [reflexivity |].
  apply (protocol_error_status_and_body
           (Sample.failing
              (ThrownOAuth {| cls := OtherOAuthError "unsupported_token_type";
                              description := "Cannot revoke this" |}))
           (Sample.authenticated Sample.form) fresh Sample.idle
           {| cls := OtherOAuthError "unsupported_token_type";
              description := "Cannot revoke this" |}
           (record (EvRevoke Sample.app Sample.revocation) Sample.idle)).
  reflexivity.
Defined.

Lemma internal_failure_is_generic_500_witness :
  try_block (Sample.failing (ThrownOther "ECONNREFUSED 10.1.2.3:5432"))
    (Sample.authenticated Sample.form) Sample.idle
  = (Threw (ThrownOther "ECONNREFUSED 10.1.2.3:5432"),
     record (EvRevoke Sample.app Sample.revocation) Sample.idle)
  /\ revoke_route (Sample.failing (ThrownOther "ECONNREFUSED 10.1.2.3:5432"))
       (Sample.authenticated Sample.form) fresh Sample.idle
     = Done {| statusCode := 500;
               headers := <["Cache-Control" := "no-store"]> (headers fresh);
               sent := Some internal_server_error |}
         (record (EvRevoke Sample.app Sample.revocation) Sample.idle).
Proof.
  split; [reflexivity |].
  apply (internal_failure_is_generic_500
           (Sample.failing (ThrownOther "ECONNREFUSED 10.1.2.3:5432"))
           (Sample.authenticated Sample.form) fresh Sample.idle
           "ECONNREFUSED 10.1.2.3:5432").
  reflexivity.
Defined.

Lemma invalid_body_is_400_without_revoke_witness :
  safeParse (body (Sample.authenticated [("client_id", "app")]))
    = ParseError "token: Required"
  /\ exists r,
       revoke_route (Sample.revoking JNull)
         (Sample.authenticated [("client_id", "app")]) fresh Sample.idle
       = Done r Sample.idle
       /\ statusCode r = 400
       /\ sent r = Some (toResponseObject
                           {| cls := InvalidRequestError;
                              description := "token: Required" |}).
Proof.
  split; [reflexivity |].
  apply (invalid_body_is_400_without_revoke (Sample.revoking JNull)
           (Sample.authenticated [("client_id", "app")]) fresh Sample.idle).
  reflexivity.
Defined.

Lemma missing_client_is_500_witness :
  safeParse (body (Sample.unauthenticated Sample.form))
    = ParseOk Sample.revocation
  /\ client (Sample.unauthenticated Sample.form) = None
  /\ exists r,
       revoke_route (Sample.revoking JNull)
         (Sample.unauthenticated Sample.form) fresh Sample.idle
       = Done r Sample.idle
       /\ statusCode r = 500
       /\ sent r = Some internal_server_error.
Proof.
  split; [reflexivity |]. split; [reflexivity |].
  apply (missing_client_is_500 (Sample.revoking JNull)
           (Sample.unauthenticated Sample.form) fresh Sample.idle
           Sample.revocation); reflexivity.
Defined.

(** C9 as stated fails: with no Client attached and a body without [token],
    validation comes first and the response is the InvalidRequest error with
    status 400. *)
Lemma missing_client_invalid_body_is_400 :
  client (Sample.unauthenticated [("client_id", "app")]) = None
  /\ exists r,
       revoke_route (Sample.revoking JNull)
         (Sample.unauthenticated [("client_id", "app")]) fresh Sample.idle
       = Done r Sample.idle
       /\ statusCode r = 400
       /\ statusCode r <> 500
       /\ sent r = Some (JObj [("error", JStr "invalid_request");
                               ("error_description", JStr "token: Required")]).
Proof.
  split; [reflexivity |].
  eexists. split; [reflexivity |]. simpl. repeat split. lia.
Qed.

Lemma non_post_is_405_and_touches_nothing_witness :
  exists router,
    revocationHandler (Sample.options (Sample.revoking JNull) RateLimit.Undefined)
    = inr router
    /\ method (Sample.arriving "GET" Sample.form) <> "POST"
    /\ exists r,
         dispatch router (Sample.arriving "GET" Sample.form) fresh
           (Sample.busy 7)
         = Responded r (Sample.busy 7)
         /\ statusCode r = 405
         /\ sent r = Some (toResponseObject
                             {| cls := MethodNotAllowedError;
                                description :=
                                  "The method GET is not allowed" |}).
Proof.
  eexists. split; [reflexivity |]. split; [discriminate |].
  apply (non_post_is_405_and_touches_nothing
           (Sample.options (Sample.revoking JNull) RateLimit.Undefined)).
  - reflexivity.
  - discriminate.
Defined.

Lemma rate_limit_disabled_or_merged_witness :
  (exists router,
     revocationHandler (Sample.options (Sample.revoking JNull) RateLimit.False)
     = inr router
     /\ forall reqs w,
          unlimited w (serve router reqs w).2
          /\ Forall not_rejected_429 (serve router reqs w).1)
  /\ (exists router o,
        revocationHandler
          (Sample.options (Sample.revoking JNull)
             (RateLimit.Given Sample.custom_message))
        = inr router
        /\ In (RateLimiter o) router
        /\ RateLimit.windowMs o = 900000%Z
        /\ RateLimit.max o = 2
        /\ RateLimit.standardHeaders o = true
        /\ RateLimit.legacyHeaders o = false
        /\ RateLimit.message o = JStr "Slow down").
Proof.
  split.
  - eexists. split; [reflexivity |].
    apply (rate_limit_disabled_or_merged
             (Sample.options (Sample.revoking JNull) RateLimit.False));
      reflexivity.
  - destruct (rate_limit_disabled_or_merged
                (Sample.options (Sample.revoking JNull)
                   (RateLimit.Given Sample.custom_message)) _ eq_refl)
      as [_ Hmerged].
    destruct Hmerged as (o & Hrouter & Hw & Hmax & Hstd & Hleg & Hmsg);
      [discriminate |].
    eexists. exists o. split; [reflexivity |].
    split; [rewrite Hrouter; simpl; tauto |].
    repeat split; assumption.
Defined.

Lemma over_cap_stops_at_limiter_witness :
  exists router,
    revocationHandler (Sample.options (Sample.revoking JNull) RateLimit.Undefined)
    = inr router
    /\ RateLimit.Undefined <> RateLimit.False
    /\ method (Sample.arriving "POST" Sample.form) = "POST"
    /\ 50 < S (hits (Sample.busy 50) !!! "10.0.0.1")
    /\ exists r w',
         dispatch router (Sample.arriving "POST" Sample.form) fresh
           (Sample.busy 50)
         = Responded r w'
         /\ statusCode r = 429
         /\ sent r = Some too_many_requests
         /\ (@None Json = None -> sent r = Some too_many_requests)
         /\ pstate w' = pstate (Sample.busy 50)
         /\ log w' = log (Sample.busy 50) ++ [EvRateLimit "10.0.0.1"].
Proof.
  eexists. split; [reflexivity |]. split; [discriminate |].
  split; [reflexivity |]. split; [vm_compute; lia |].
  apply (over_cap_stops_at_limiter
           (Sample.options (Sample.revoking JNull) RateLimit.Undefined) _
           (Sample.arriving "POST" Sample.form) fresh (Sample.busy 50)).
  - reflexivity.
  - discriminate.
  - reflexivity.
  - vm_compute. lia.
Defined.

(** C7 as stated fails: when the caller's configuration carries a message of
    its own, a request over the cap is answered with that message, which is
    not a TooManyRequests error body. *)
Lemma custom_message_replaces_too_many_requests :
  exists router r w',
    revocationHandler
      (Sample.options (Sample.revoking JNull)
         (RateLimit.Given Sample.custom_message))
    = inr router
    /\ RateLimit.max
         (RateLimit.spread defaults (RateLimit.Given Sample.custom_message))
       < S (hits (Sample.busy 2) !!! "10.0.0.1")
    /\ dispatch router (Sample.arriving "POST" Sample.form) fresh
         (Sample.busy 2)
       = Responded r w'
    /\ sent r = Some (JStr "Slow down")
    /\ forall text,
         sent r <> Some (toResponseObject
                           {| cls := TooManyRequestsError;
                              description := text |}).
Proof.
  do 3 eexists. split; [reflexivity |]. split; [vm_compute; lia |].
  split; [reflexivity |]. split; [reflexivity |].
  intros text. simpl. discriminate.
Qed.

Lemma construction_throws_without_revokeToken_witness :
  revokeToken (provider (Sample.options Sample.mute RateLimit.Undefined)) = None
  /\ revocationHandler (Sample.options Sample.mute RateLimit.Undefined)
     = inl "Auth provider does not support revoking tokens"
  /\ forall router,
       revocationHandler (Sample.options Sample.mute RateLimit.Undefined)
       <> inr router.
Proof.
  split; [reflexivity |].
  apply (construction_throws_without_revokeToken
           (Sample.options Sample.mute RateLimit.Undefined)).
  reflexivity.
Defined.

Lemma returned_router_can_call_revokeToken_witness :
  exists router,
    revocationHandler (Sample.options (Sample.revoking JNull) RateLimit.Undefined)
    = inr router
    /\ exists f,
         revokeToken (Sample.revoking JNull) = Some f
         /\ (forall p, PostRoute p ∈ router -> p = Sample.revoking JNull)
         /\ forall c data w,
              call_revokeToken (Sample.revoking JNull) c data w
              = ((f c data (pstate w)).1,
                 with_pstate (f c data (pstate w)).2
                   (record (EvRevoke c data) w)).
Proof.
  eexists. split; [reflexivity |].
  apply (returned_router_can_call_revokeToken
           (Sample.options (Sample.revoking JNull) RateLimit.Undefined)).
  reflexivity.
Defined.

(** ** Runs of the sample deployment *)

(** With a cap of two, the third request of an address is turned away. *)
Example third_request_is_limited :
  Sample.run (Sample.revoking JNull) (RateLimit.Given Sample.custom_message)
    [Sample.arriving "POST" Sample.form;
     Sample.arriving "POST" Sample.form;
     Sample.arriving "POST" Sample.form]
  = Some [Some (200, Some (JObj []));
          Some (200, Some (JObj []));
          Some (429, Some (JStr "Slow down"))].
Proof. vm_compute. reflexivity. Qed.

(** Without the limiter, it is served like the others. *)
Example third_request_is_served_when_disabled :
  Sample.run (Sample.revoking JNull) RateLimit.False
    [Sample.arriving "POST" Sample.form;
     Sample.arriving "POST" Sample.form;
     Sample.arriving "POST" Sample.form]
  = Some [Some (200, Some (JObj []));
          Some (200, Some (JObj []));
          Some (200, Some (JObj []))].
Proof. vm_compute. reflexivity. Qed.

(** A GET, a POST with wrong credentials, a POST without token, and a POST
    whose provider fails internally. *)
Example error_responses :
  Sample.run (Sample.failing (ThrownOther "disk full")) RateLimit.Undefined
    [Sample.arriving "GET" Sample.form;
     Sample.arriving "POST" [("client_id", "app"); ("token", "t0k3n")];
     Sample.arriving "POST" [("client_id", "app"); ("client_secret", "s3cret")];
     Sample.arriving "POST" Sample.form]
  = Some [Some (405, Some (JObj [("error", JStr "method_not_allowed");
                                 ("error_description",
                                  JStr "The method GET is not allowed")]));
          Some (400, Some (JObj [("error", JStr "invalid_client");
                                 ("error_description",
                                  JStr "Invalid client credentials")]));
          Some (400, Some (JObj [("error", JStr "invalid_request");
                                 ("error_description",
                                  JStr "token: Required")]));
          Some (500, Some internal_server_error)].
Proof. vm_compute. reflexivity. Qed.

(** Construction throws for a provider without [revokeToken]. *)
Example mute_provider_has_no_router :
  Sample.run Sample.mute RateLimit.Undefined [] = None.
Proof. reflexivity. Qed.

(** * Further properties on the sample deployment *)

Lemma revoke_route_no_store_witness :
  exists r w',
    revoke_route (Sample.failing (ThrownOther "disk full"))
      (Sample.authenticated Sample.form) fresh Sample.idle
    = Done r w'
    /\ statusCode r = 500
    /\ headers r !! "Cache-Control" = Some "no-store".
Proof.
  do 2 eexists. split; [reflexivity |]. split; [reflexivity |].
  eapply (revoke_route_no_store (Sample.failing (ThrownOther "disk full"))
            (Sample.authenticated Sample.form) fresh Sample.idle).
  reflexivity.
Defined.

Lemma business_stage_answers_success_or_rendered_error_witness :
  exists r w',
    revoke_route
      (Sample.failing
         (ThrownOAuth {| cls := ServerError; description := "Store offline" |}))
      (Sample.authenticated Sample.form) fresh Sample.idle
    = Done r w'
    /\ ((statusCode r = 200 /\ sent r = Some (JObj []))
        \/ exists e,
             statusCode r = (if instanceof_ServerError e then 500 else 400)
             /\ sent r = Some (toResponseObject e)).
Proof.
  do 2 eexists. split; [reflexivity |].
  eapply (business_stage_answers_success_or_rendered_error
            (Sample.failing
               (ThrownOAuth {| cls := ServerError;
                               description := "Store offline" |}))
            (Sample.authenticated Sample.form) fresh Sample.idle).
  reflexivity.
Defined.

Lemma unanswered_iff_provider_pending_witness :
  revoke_route Sample.hanging (Sample.authenticated Sample.form) fresh
    Sample.idle
  = Stalled (with_pstate []
               (record (EvRevoke Sample.app Sample.revocation) Sample.idle)).
Proof.
  apply (unanswered_iff_provider_pending Sample.hanging
           (Sample.authenticated Sample.form) fresh Sample.idle).
  exists Sample.revocation, Sample.app, (fun _ _ ps => (Pending, ps)), [].
  repeat split; reflexivity.
Defined.

Lemma status_200_only_after_provider_resolved_witness :
  exists r w',
    revoke_route (Sample.revoking JNull) (Sample.authenticated Sample.form)
      fresh Sample.idle
    = Done r w'
    /\ statusCode r = 200
    /\ exists data c f v,
         safeParse (body (Sample.authenticated Sample.form)) = ParseOk data
         /\ client (Sample.authenticated Sample.form) = Some c
         /\ revokeToken (Sample.revoking JNull) = Some f
         /\ f c data (pstate Sample.idle) = (Resolved v, pstate w')
         /\ log w' = log Sample.idle ++ [EvRevoke c data]
         /\ sent r = Some (JObj []).
Proof.
  do 2 eexists. split; [reflexivity |]. split; [reflexivity |].
  eapply (status_200_only_after_provider_resolved (Sample.revoking JNull)
            (Sample.authenticated Sample.form) fresh Sample.idle);
    reflexivity.
Defined.

Lemma success_response_reveals_nothing_witness :
  exists r1 w1 r2 w2,
    revoke_route (Sample.revoking (JStr "no such token"))
      (Sample.authenticated Sample.form) fresh Sample.idle
    = Done r1 w1
    /\ revoke_route (Sample.revoking JNull)
         (Sample.authenticated
            [("token", "another"); ("token_type_hint", "refresh_token")])
         fresh (Sample.busy 3)
       = Done r2 w2
    /\ w1 <> w2
    /\ r1 = r2.
Proof.
  do 4 eexists. split; [reflexivity |]. split; [reflexivity |].
  split; [discriminate |].
  eapply (success_response_reveals_nothing
            (Sample.revoking (JStr "no such token")) (Sample.revoking JNull)
            (Sample.authenticated Sample.form)
            (Sample.authenticated
               [("token", "another"); ("token_type_hint", "refresh_token")])
            fresh Sample.idle (Sample.busy 3));
    reflexivity.
Defined.

Lemma endpoint_success_witness :
  revocationHandler (Sample.options (Sample.revoking JNull) RateLimit.Undefined)
  = inr (Sample.router_of (Sample.revoking JNull) RateLimit.Undefined)
  /\ exists r w',
       dispatch (Sample.router_of (Sample.revoking JNull) RateLimit.Undefined)
         (Sample.arriving "POST" Sample.form) fresh (Sample.busy 49)
       = Responded r w'
       /\ statusCode r = 200
       /\ sent r = Some (JObj [])
       /\ headers r !! "Cache-Control" = Some "no-store"
       /\ pstate w' = ["t0k3n"].
Proof.
  split; [reflexivity |].
  eapply (endpoint_success
            (Sample.options (Sample.revoking JNull) RateLimit.Undefined) _ _
            (Sample.arriving "POST" Sample.form) fresh (Sample.busy 49)
            Sample.app Sample.revocation JNull).
  - reflexivity.
  - reflexivity.
  - right. vm_compute. lia.
  - reflexivity.
  - reflexivity.
  - reflexivity.
  - reflexivity.
Defined.




Lemma at_most_max_reach_authentication_witness :
  revocationHandler
    (Sample.options (Sample.revoking JNull)
       (RateLimit.Given Sample.custom_message))
  = inr (Sample.router_of (Sample.revoking JNull)
           (RateLimit.Given Sample.custom_message))
  /\ authentications
       (log (serve
               (Sample.router_of (Sample.revoking JNull)
                  (RateLimit.Given Sample.custom_message))
               [Sample.intruder; Sample.arriving "POST" Sample.form;
                Sample.intruder; Sample.arriving "POST" Sample.form]
               Sample.idle).2)
     <= authentications (log Sample.idle)
        + (RateLimit.max
             (RateLimit.spread defaults (RateLimit.Given Sample.custom_message))
           - hits Sample.idle !!! "10.0.0.1").
Proof.
  split; [reflexivity |].
  apply (at_most_max_reach_authentication
           (Sample.options (Sample.revoking JNull)
              (RateLimit.Given Sample.custom_message))
           (Sample.router_of (Sample.revoking JNull)
              (RateLimit.Given Sample.custom_message))
           "10.0.0.1").
  - reflexivity.
  - discriminate.
  - repeat constructor.
Defined.

Lemma arriving_client_is_ignored_witness :
  revocationHandler (Sample.options (Sample.revoking JNull) RateLimit.False)
  = inr (Sample.router_of (Sample.revoking JNull) RateLimit.False)
  /\ dispatch (Sample.router_of (Sample.revoking JNull) RateLimit.False)
       (with_any_client (Some Sample.app) Sample.intruder) fresh Sample.idle
     = dispatch (Sample.router_of (Sample.revoking JNull) RateLimit.False)
         Sample.intruder fresh Sample.idle.
Proof.
  split; [reflexivity |].
  apply (arriving_client_is_ignored
           (Sample.options (Sample.revoking JNull) RateLimit.False)).
  reflexivity.
Defined.

(** A request with a Client already on it and wrong credentials is turned
    away by authentication; one whose provider never settles gets no
    response. *)
Example intruder_and_hanging_provider :
  Sample.run Sample.hanging RateLimit.False
    [with_any_client (Some Sample.app) Sample.intruder;
     Sample.arriving "POST" Sample.form]
  = Some [Some (400, Some (JObj [("error", JStr "invalid_client");
                                 ("error_description",
                                  JStr "Invalid client credentials")]));
          None].
Proof. vm_compute. reflexivity. Qed.
